(** * TaskCPP.h: the FreeRTOS task wrapper

    A shallow embedding of [src/TaskCPP.h]: the [TaskPriority] enumeration,
    the [Task] class (constructor, destructor, accessors and the thin
    wrappers around the kernel's task primitives) and the [TaskClass]
    trampoline [taskfun].

    Conventions.
    - C integers and pointers are [Z]; the null pointer is [0].
    - Objects live in a store indexed by their address, so that the
      trampoline (which receives the object as a [void*]) and the member
      functions act on the same [handle] field.
    - The FreeRTOS kernel is not part of this header.  Every kernel call is
      recorded in a trace, in program order together with the writes to
      [handle] fields, and what the kernel hands back (a created handle, a
      priority, the answer of [xTaskResumeFromISR]) is read from a
      [Scheduler] oracle that the development is parametric in.
    - The preprocessor switches of [FreeRTOSConfig.h] are fields of a
      [Config] record. *)

From Stdlib Require Import ZArith Bool List Lia.
From stdpp Require Import base option list strings gmap.

Open Scope Z_scope.

(** ** Configuration (FreeRTOSConfig.h, portmacro.h) *)

Record Config := {
  configMAX_PRIORITIES : Z;
  INCLUDE_vTaskDelete : bool;
  INCLUDE_vTaskPriorityGet : bool;
  INCLUDE_vTaskPrioritySet : bool;
  INCLUDE_vTaskSuspend : bool;
  INCLUDE_vTaskResumeFromISR : bool;
  portMAX_DELAY : Z
}.

(** ** The TaskPriority enumeration (lines 63-70) *)

Module Priority.

(** A C++ comparison used as an integer: [true] is 1, [false] is 0. *)
Definition cmp (b : bool) : Z := Z.b2z b.

(** The enumerators carry [int] values computed from the macro
    [configMAX_PRIORITIES] (the argument [N]); [/] on [int] truncates
    towards zero, which is [Z.quot].  For [1 <= N] every intermediate
    value lies between [0] and [N], so an [N] that fits an [int] never
    makes the arithmetic leave the range of [int] and no wrap-around is
    written out. *)
Definition TaskPrio_Idle : Z := 0.
Definition TaskPrio_Low (N : Z) : Z := cmp (N >? 1).
Definition TaskPrio_HMI (N : Z) : Z := TaskPrio_Low N + cmp (N >? 5).
Definition TaskPrio_Mid (N : Z) : Z := Z.quot N 2.
Definition TaskPrio_High (N : Z) : Z := N - 1 - cmp (N >? 4).
Definition TaskPrio_Highest (N : Z) : Z := N - 1.

(** The names of the six enumerators. *)
Inductive PriorityTier := Idle | Low | HMI | Mid | High | Highest.

Definition all_tiers : list PriorityTier :=
  [Idle; Low; HMI; Mid; High; Highest].

(** The value of an enumerator under a given [configMAX_PRIORITIES]. *)
Definition enum_value (N : Z) (t : PriorityTier) : Z :=
  match t with
  | Idle => TaskPrio_Idle
  | Low => TaskPrio_Low N
  | HMI => TaskPrio_HMI N
  | Mid => TaskPrio_Mid N
  | High => TaskPrio_High N
  | Highest => TaskPrio_Highest N
  end.

(** The values in the order (Idle, Low, HMI, Mid, High, Highest): one
    column of the table in the header's documentation. *)
Definition priority_table (N : Z) : list Z := map (enum_value N) all_tiers.

(** The specification's wording of the mapping ([tier_to_ordinal] of its
    section 4.1), kept apart from the enumeration above so that the two
    can be compared. *)
Definition tier_to_ordinal (t : PriorityTier) (N : Z) : Z :=
  match t with
  | Idle => 0
  | Low => if decide (N > 1) then 1 else 0
  | HMI => (if decide (N > 1) then 1 else 0) + (if decide (N > 5) then 1 else 0)
  | Mid => N / 2
  | High => N - 1 - (if decide (N > 4) then 1 else 0)
  | Highest => N - 1
  end.

End Priority.

(** The table of the header's documentation (lines 51-58), column by
    column: the values it lists for Idle, Low, HMI, Mid, High and Highest
    under configMAX_PRIORITIES = 1, ..., 6 and under N > 6. *)
Definition documented_column (N : Z) : list Z :=
  if N =? 1 then [0; 0; 0; 0; 0; 0]
  else if N =? 2 then [0; 1; 1; 1; 1; 1]
  else if N =? 3 then [0; 1; 1; 1; 2; 2]
  else if N =? 4 then [0; 1; 1; 2; 3; 3]
  else if N =? 5 then [0; 1; 1; 2; 3; 4]
  else if N =? 6 then [0; 1; 2; 3; 4; 5]
  else [0; 1; 2; N / 2; N - 2; N - 1].

(** ** The kernel as seen from the header (freertos/task.h) *)

Module Kernel.

Definition TaskHandle_t := Z.
Definition NULL : Z := 0.
Definition pdFALSE : Z := 0.
Definition pdTRUE : Z := 1.
Definition pdPASS : Z := 1.
Definition errCOULD_NOT_ALLOCATE_REQUIRED_MEMORY : Z := -1.

(** The function pointers handed to [xTaskCreate]: the trampoline
    [TaskClass::taskfun], or a function of the caller's. *)
Inductive TaskFunction_t :=
| fn_taskfun
| fn_user (addr : Z).

(** One record per kernel call, with the arguments as passed. *)
Inductive SchedCall :=
| Call_xTaskCreate (pvTaskCode : TaskFunction_t) (pcName : string)
    (usStackDepth : Z) (pvParameters : Z) (uxPriority : Z)
| Call_vTaskDelete (xTask : TaskHandle_t)
| Call_uxTaskPriorityGet (xTask : TaskHandle_t)
| Call_vTaskPrioritySet (xTask : TaskHandle_t) (uxNewPriority : Z)
| Call_vTaskSuspend (xTask : TaskHandle_t)
| Call_vTaskResume (xTask : TaskHandle_t)
| Call_xTaskResumeFromISR (xTask : TaskHandle_t)
| Call_vTaskDelay (xTicksToDelay : Z).

(** What is observable of a run, in program order: the kernel calls and
    the writes to the [handle] field of the object at address [this]. *)
Inductive Event :=
| Call (c : SchedCall)
| Store (this : Z) (h : TaskHandle_t).

(** The two outputs of [xTaskCreate]: its return value, and what it stores
    through [pxCreatedTask] ([None]: it stores nothing). *)
Record CreateResult := {
  xReturn : Z;
  created : option TaskHandle_t
}.

(** The kernel's answers, as functions of the history and the arguments. *)
Record Scheduler := {
  xTaskCreate_answer :
    list Event -> TaskFunction_t -> string -> Z -> Z -> Z -> CreateResult;
  uxTaskPriorityGet_answer : list Event -> TaskHandle_t -> Z;
  xTaskResumeFromISR_answer : list Event -> TaskHandle_t -> Z
}.

End Kernel.

Import Kernel.

(** ** Objects, worlds and computations *)

(** The data of a [Task] object (line 196). *)
Record TaskObject := { handle : TaskHandle_t }.

(** [objects]: the storage of the [Task] objects, by address.  [trace]:
    the events so far.  [current]: the handle of the task that executes the
    code (the kernel's current task). *)
Record World := {
  objects : gmap Z TaskObject;
  trace : list Event;
  current : TaskHandle_t
}.

(** How a call ends. *)
Inductive Outcome (A : Type) :=
| Returned (a : A) (w : World)
    (* the call came back to its caller with result [a] *)
| TaskDeleted (w : World)
    (* the executing task was deleted inside a kernel call: no statement
       after that call is executed *)
| Spinning (w : World)
    (* the step budget ran out inside a loop: the call has not returned *)
| Undefined (w : World).
    (* a member was accessed through a pointer to no object *)

Arguments Returned {A} a w.
Arguments TaskDeleted {A} w.
Arguments Spinning {A} w.
Arguments Undefined {A} w.

Definition world_of {A} (o : Outcome A) : World :=
  match o with
  | Returned _ w | TaskDeleted w | Spinning w | Undefined w => w
  end.

Definition returned {A} (o : Outcome A) : bool :=
  match o with Returned _ _ => true | _ => false end.

Definition M (A : Type) : Type := World -> Outcome A.

Definition ret {A} (a : A) : M A := fun w => Returned a w.

Definition bind {A B} (m : M A) (k : A -> M B) : M B :=
  fun w =>
    match m w with
    | Returned a w' => k a w'
    | TaskDeleted w' => TaskDeleted w'
    | Spinning w' => Spinning w'
    | Undefined w' => Undefined w'
    end.

Declare Scope task_scope.
Delimit Scope task_scope with task.
Notation "x <- m ;; k" := (bind m (fun x => k))
  (at level 100, m at next level, right associativity) : task_scope.
Notation "m ;; k" := (bind m (fun _ => k))
  (at level 100, right associativity) : task_scope.
Open Scope task_scope.

Definition emit (e : Event) : M unit :=
  fun w => Returned tt
    {| objects := objects w; trace := trace w ++ [e]; current := current w |}.

Definition history : M (list Event) := fun w => Returned (trace w) w.

(** Reading [this->handle]. *)
Definition load_handle (this : Z) : M TaskHandle_t :=
  fun w =>
    match objects w !! this with
    | Some o => Returned (handle o) w
    | None => Undefined w
    end.

(** Writing [this->handle = h]. *)
Definition store_handle (this : Z) (h : TaskHandle_t) : M unit :=
  fun w =>
    match objects w !! this with
    | Some _ =>
        Returned tt
          {| objects := <[this := {| handle := h |}]> (objects w);
             trace := trace w ++ [Store this h];
             current := current w |}
    | None => Undefined w
    end.

(** [while(1) body]: at most [fuel] rounds are run. *)
Fixpoint while_1 (fuel : nat) (body : M unit) : M unit :=
  match fuel with
  | O => fun w => Spinning w
  | S n => body ;; while_1 n body
  end.

(** The writes to [handle] fields in a trace: address and value. *)
Fixpoint stores (t : list Event) : list (Z * TaskHandle_t) :=
  match t with
  | [] => []
  | Store this h :: t' => (this, h) :: stores t'
  | Call _ :: t' => stores t'
  end.

(** The kernel calls of a trace. *)
Fixpoint calls (t : list Event) : list SchedCall :=
  match t with
  | [] => []
  | Call c :: t' => c :: calls t'
  | Store _ _ :: t' => calls t'
  end.

Definition is_delete (c : SchedCall) : bool :=
  match c with Call_vTaskDelete _ => true | _ => false end.

(** The number of [vTaskDelete] calls in a trace. *)
Definition delete_count (t : list Event) : nat :=
  length (List.filter is_delete (calls t)).

(** ** The kernel primitives the header calls *)

Section Wrapper.

Variable cfg : Config.
Variable sched : Scheduler.

(** [xTaskCreate(code, name, depth, parm, prio, &this->handle)]: the handle
    is passed back through the last argument, when the kernel passes one
    back at all. *)
Definition xTaskCreate (pvTaskCode : TaskFunction_t) (pcName : string)
    (usStackDepth pvParameters uxPriority : Z) (pxCreatedTask : Z) : M Z :=
  past <- history ;;
  let r := xTaskCreate_answer sched past pvTaskCode pcName usStackDepth
             pvParameters uxPriority in
  emit (Call (Call_xTaskCreate pvTaskCode pcName usStackDepth pvParameters
                uxPriority)) ;;
  match created r with
  | Some h => store_handle pxCreatedTask h
  | None => ret tt
  end ;;
  ret (xReturn r).

(** [vTaskDelete(h)]: with [h] null or the handle of the executing task, the
    executing task is the one deleted and the call does not return. *)
Definition vTaskDelete (xTask : TaskHandle_t) : M unit :=
  emit (Call (Call_vTaskDelete xTask)) ;;
  fun w =>
    if (xTask =? NULL) || (xTask =? current w)
    then TaskDeleted w else Returned tt w.

Definition uxTaskPriorityGet (xTask : TaskHandle_t) : M Z :=
  past <- history ;;
  emit (Call (Call_uxTaskPriorityGet xTask)) ;;
  ret (uxTaskPriorityGet_answer sched past xTask).

Definition vTaskPrioritySet (xTask : TaskHandle_t) (uxNewPriority : Z)
    : M unit :=
  emit (Call (Call_vTaskPrioritySet xTask uxNewPriority)).

Definition vTaskSuspend (xTask : TaskHandle_t) : M unit :=
  emit (Call (Call_vTaskSuspend xTask)).

Definition vTaskResume (xTask : TaskHandle_t) : M unit :=
  emit (Call (Call_vTaskResume xTask)).

Definition xTaskResumeFromISR (xTask : TaskHandle_t) : M Z :=
  past <- history ;;
  emit (Call (Call_xTaskResumeFromISR xTask)) ;;
  ret (xTaskResumeFromISR_answer sched past xTask).

Definition vTaskDelay (xTicksToDelay : Z) : M unit :=
  emit (Call (Call_vTaskDelay xTicksToDelay)).

(** ** class Task (lines 107-206) *)

(** The constructor (lines 122-125), run on the storage at [this].  It has
    no member initialiser and its body is the one call; the value of
    [xTaskCreate] is dropped. *)
Definition Task_ctor (this : Z) (name : string) (taskfun : TaskFunction_t)
    (priority : Z) (stackDepth : Z) (parm : Z) : M unit :=
  xTaskCreate taskfun name stackDepth parm priority this ;;
  ret tt.

(** The destructor (lines 131-138). *)
Definition Task_dtor (this : Z) : M unit :=
  if INCLUDE_vTaskDelete cfg then
    h <- load_handle this ;;
    if negb (h =? 0) then vTaskDelete h else ret tt
  else ret tt.

(** [getHandle] (line 144). *)
Definition getHandle (this : Z) : M TaskHandle_t := load_handle this.

(** [priority()] (line 153): the kernel's answer converted to the
    enumeration type.  The line as it stands in the header lacks the
    parenthesis that closes the cast; it is read with that parenthesis. *)
Definition priority_get (this : Z) : M Z :=
  h <- load_handle this ;;
  uxTaskPriorityGet h.

(** [priority(TaskPriority)] (line 163). *)
Definition priority_set (this : Z) (priority : Z) : M unit :=
  h <- load_handle this ;;
  vTaskPrioritySet h priority.

(** [suspend] (line 172) and [resume] (line 179). *)
Definition suspend (this : Z) : M unit :=
  h <- load_handle this ;;
  vTaskSuspend h.

Definition resume (this : Z) : M unit :=
  h <- load_handle this ;;
  vTaskResume h.

(** The conversion of a [BaseType_t] to [bool]: non-zero is [true]. *)
Definition to_bool (x : Z) : bool := negb (x =? 0).

(** [resume_ISR] (line 190). *)
Definition resume_ISR (this : Z) : M bool :=
  h <- load_handle this ;;
  r <- xTaskResumeFromISR h ;;
  ret (to_bool r).

(** The members of [Task] other than the constructor, and the switches each
    one is compiled under. *)
Inductive Member :=
| m_dtor | m_getHandle | m_priority_get | m_priority_set
| m_suspend | m_resume | m_resume_ISR.

Definition compiled (m : Member) : bool :=
  match m with
  | m_dtor | m_getHandle => true
  | m_priority_get => INCLUDE_vTaskPriorityGet cfg
  | m_priority_set => INCLUDE_vTaskPrioritySet cfg
  | m_suspend | m_resume => INCLUDE_vTaskSuspend cfg
  | m_resume_ISR => INCLUDE_vTaskSuspend cfg && INCLUDE_vTaskResumeFromISR cfg
  end.

(** ** class TaskClass (lines 233-280) *)

(** The pure virtual [task()]: the body a derived class supplies, for the
    object at the given address. *)
Variable task : Z -> M unit.

(** The constructor (lines 250-254). *)
Definition TaskClass_ctor (this : Z) (name : string) (priority : Z)
    (stackDepth : Z) : M unit :=
  Task_ctor this name fn_taskfun priority stackDepth this.

(** The trampoline (lines 269-279); [fuel] is the number of rounds of its
    [while(1)] that are observed. *)
Definition taskfun (fuel : nat) (parm : Z) : M unit :=
  task parm ;;
  if INCLUDE_vTaskDelete cfg then
    store_handle parm 0 ;;
    vTaskDelete 0
  else
    while_1 fuel (vTaskDelay (portMAX_DELAY cfg)).

End Wrapper.

(** ** Predicates used in the statements *)

(** A computation that writes no [handle] field: it leaves the object
    store as it found it and adds no [Store] event to the trace, however
    it ends. *)
Definition keeps_handles {A} (m : M A) : Prop :=
  forall w,
    objects (world_of (m w)) = objects w /\
    stores (trace (world_of (m w))) = stores (trace w).

(** A computation that never calls [vTaskDelete]: the number of such calls
    in the trace is the same after it as before, however it ends. *)
Definition never_deletes {A} (m : M A) : Prop :=
  forall w, delete_count (trace (world_of (m w))) = delete_count (trace w).

(** ** Concrete data used by the examples *)

Definition cfg_delete : Config :=
  {| configMAX_PRIORITIES := 6;
     INCLUDE_vTaskDelete := true;
     INCLUDE_vTaskPriorityGet := true;
     INCLUDE_vTaskPrioritySet := true;
     INCLUDE_vTaskSuspend := true;
     INCLUDE_vTaskResumeFromISR := true;
     portMAX_DELAY := 4294967295 |}.

Definition cfg_no_delete : Config :=
  {| configMAX_PRIORITIES := 6;
     INCLUDE_vTaskDelete := false;
     INCLUDE_vTaskPriorityGet := true;
     INCLUDE_vTaskPrioritySet := true;
     INCLUDE_vTaskSuspend := true;
     INCLUDE_vTaskResumeFromISR := true;
     portMAX_DELAY := 4294967295 |}.

(** A kernel that creates every task at address [4096], reports priority 1
    and asks for a context switch after a resume from an interrupt. *)
Definition sched_ok : Scheduler :=
  {| xTaskCreate_answer := fun _ _ _ _ _ _ =>
       {| xReturn := pdPASS; created := Some 4096 |};
     uxTaskPriorityGet_answer := fun _ _ => 1;
     xTaskResumeFromISR_answer := fun _ _ => pdTRUE |}.

(** A kernel out of memory: [xTaskCreate] reports the failure and stores
    nothing through [pxCreatedTask]. *)
Definition sched_oom : Scheduler :=
  {| xTaskCreate_answer := fun _ _ _ _ _ _ =>
       {| xReturn := errCOULD_NOT_ALLOCATE_REQUIRED_MEMORY; created := None |};
     uxTaskPriorityGet_answer := fun _ _ => 0;
     xTaskResumeFromISR_answer := fun _ _ => pdFALSE |}.

(** A kernel that stores nothing either, but reports [pdPASS]: it differs
    from [sched_oom] in the reported status only. *)
Definition sched_mute : Scheduler :=
  {| xTaskCreate_answer := fun _ _ _ _ _ _ =>
       {| xReturn := pdPASS; created := None |};
     uxTaskPriorityGet_answer := fun _ _ => 0;
     xTaskResumeFromISR_answer := fun _ _ => pdFALSE |}.

(** One object at address [100] with the given content of its [handle]
    field; the code is executed by the task with handle [512]. *)
Definition world_with (h : TaskHandle_t) : World :=
  {| objects := {[ 100 := {| handle := h |} ]}; trace := []; current := 512 |}.

(** A task body that returns at once. *)
Definition task_returns : Z -> M unit := fun _ => ret tt.

Import Priority.

(** ** The priority enumeration *)

Lemma cmp_gt (N k : Z) : cmp (N >? k) = if decide (N > k) then 1 else 0.
Proof.
  unfold cmp. destruct (Z.gtb_spec N k), (decide (N > k)); simpl; lia.
Qed.

Lemma quot2_div2 (N : Z) : 0 <= N -> Z.quot N 2 = N / 2.
Proof. intros HN. apply Z.quot_div_nonneg; lia. Qed.

(** C1. For every priority-level count N >= 1 the six enumerators have
    exactly the values of the specification's algorithm: Idle = 0,
    Low = 1 if N > 1 else 0, HMI = Low + (1 if N > 5 else 0),
    Mid = N / 2 (integer division), High = N - 1 - (1 if N > 4 else 0),
    Highest = N - 1; that is, the enumeration agrees with
    [tier_to_ordinal] on every tier. *)
Theorem priority_values_match_algorithm (N : Z) :
  1 <= N ->
  TaskPrio_Idle = 0 /\
  TaskPrio_Low N = (if decide (N > 1) then 1 else 0) /\
  TaskPrio_HMI N = TaskPrio_Low N + (if decide (N > 5) then 1 else 0) /\
  TaskPrio_Mid N = N / 2 /\
  TaskPrio_High N = N - 1 - (if decide (N > 4) then 1 else 0) /\
  TaskPrio_Highest N = N - 1 /\
  forall t, enum_value N t = tier_to_ordinal t N.
Proof.
  intros HN.
  assert (Hmid : TaskPrio_Mid N = N / 2) by (apply quot2_div2; lia).
  repeat split; trivial.
  - apply cmp_gt.
  - unfold TaskPrio_HMI. now rewrite cmp_gt.
  - unfold TaskPrio_High. now rewrite cmp_gt.
  - intros []; simpl; trivial.
    + apply cmp_gt.
    + unfold TaskPrio_HMI, TaskPrio_Low. now rewrite !cmp_gt.
    + unfold TaskPrio_High. now rewrite cmp_gt.
Qed.

Lemma priority_values_match_algorithm_witness :
  1 <= 6 /\
  TaskPrio_Idle = 0 /\
  TaskPrio_Low 6 = (if decide (6 > 1) then 1 else 0) /\
  TaskPrio_HMI 6 = TaskPrio_Low 6 + (if decide (6 > 5) then 1 else 0) /\
  TaskPrio_Mid 6 = 6 / 2 /\
  TaskPrio_High 6 = 6 - 1 - (if decide (6 > 4) then 1 else 0) /\
  TaskPrio_Highest 6 = 6 - 1 /\
  forall t, enum_value 6 t = tier_to_ordinal t 6.
Proof.
  split; [lia | apply (priority_values_match_algorithm 6); lia].
Defined.

(** C2. For every priority-level count N >= 1 the enumerators are ordered
    Idle <= Low <= HMI <= Mid <= High <= Highest, with Idle = 0 and
    Highest = N - 1, and no enumerator exceeds N - 1. *)
Theorem priority_tiers_ordered (N : Z) :
  1 <= N ->
  TaskPrio_Idle <= TaskPrio_Low N /\
  TaskPrio_Low N <= TaskPrio_HMI N /\
  TaskPrio_HMI N <= TaskPrio_Mid N /\
  TaskPrio_Mid N <= TaskPrio_High N /\
  TaskPrio_High N <= TaskPrio_Highest N /\
  TaskPrio_Idle = 0 /\
  TaskPrio_Highest N = N - 1 /\
  forall t, 0 <= enum_value N t <= N - 1.
Proof.
  intros HN.
  assert (Hq : TaskPrio_Mid N = N / 2) by (apply quot2_div2; lia).
  assert (Hd : 2 * (N / 2) <= N < 2 * (N / 2) + 2).
  { pose proof (Z.div_mod N 2 ltac:(lia)).
    pose proof (Z.mod_pos_bound N 2 ltac:(lia)). lia. }
  assert (Hl : TaskPrio_Low N = if decide (N > 1) then 1 else 0)
    by apply cmp_gt.
  assert (Hh : TaskPrio_HMI N = TaskPrio_Low N + if decide (N > 5) then 1 else 0)
    by (unfold TaskPrio_HMI; now rewrite cmp_gt).
  assert (Hg : TaskPrio_High N = N - 1 - if decide (N > 4) then 1 else 0)
    by (unfold TaskPrio_High; now rewrite cmp_gt).
  assert (Ht : TaskPrio_Highest N = N - 1) by reflexivity.
  assert (Hi : TaskPrio_Idle = 0) by reflexivity.
  assert (Hall : forall t, 0 <= enum_value N t <= N - 1).
  { intros []; simpl; rewrite ?Hh, ?Hl, ?Hg, ?Hq, ?Ht, ?Hi;
      repeat case_decide; lia. }
  rewrite Hh, Hl, Hg, Hq, Ht, Hi.
  repeat (split; [repeat case_decide; lia |]). exact Hall.
Qed.

Lemma priority_tiers_ordered_witness :
  1 <= 10 /\
  TaskPrio_Idle <= TaskPrio_Low 10 /\
  TaskPrio_Low 10 <= TaskPrio_HMI 10 /\
  TaskPrio_HMI 10 <= TaskPrio_Mid 10 /\
  TaskPrio_Mid 10 <= TaskPrio_High 10 /\
  TaskPrio_High 10 <= TaskPrio_Highest 10 /\
  TaskPrio_Idle = 0 /\
  TaskPrio_Highest 10 = 10 - 1 /\
  forall t, 0 <= enum_value 10 t <= 10 - 1.
Proof.
  split; [lia | apply (priority_tiers_ordered 10); lia].
Defined.

(** C3, as claimed, fails: with two priority levels the enumerator
    TaskPrio_High is 1, not 0, so the column for N = 2 is not
    (0,1,1,1,0,1). *)
Lemma priority_tables_not_as_claimed :
  TaskPrio_High 2 = 1 /\
  ~ (priority_table 1 = [0; 0; 0; 0; 0; 0] /\
     priority_table 2 = [0; 1; 1; 1; 0; 1] /\
     priority_table 6 = [0; 1; 2; 3; 4; 5] /\
     priority_table 10 = [0; 1; 2; 5; 8; 9]).
Proof.
  split; [reflexivity |].
  intros (_ & H2 & _). vm_compute in H2. discriminate H2.
Qed.

(** C3, amended. The enumeration gives these columns (Idle, Low, HMI, Mid,
    High, Highest): for N = 1 all six are 0; for N = 2 they are
    (0,1,1,1,1,1); for N = 6 they are (0,1,2,3,4,5); for N = 10 they are
    (0,1,2,5,8,9). *)
Theorem priority_tables :
  priority_table 1 = [0; 0; 0; 0; 0; 0] /\
  priority_table 2 = [0; 1; 1; 1; 1; 1] /\
  priority_table 6 = [0; 1; 2; 3; 4; 5] /\
  priority_table 10 = [0; 1; 2; 5; 8; 9].
Proof. repeat split. Qed.

(** The columns of the table in the header's documentation for
    configMAX_PRIORITIES from 1 to 6. *)
Lemma priority_tables_of_header :
  map priority_table [1; 2; 3; 4; 5; 6] =
  [ [0; 0; 0; 0; 0; 0];
    [0; 1; 1; 1; 1; 1];
    [0; 1; 1; 1; 2; 2];
    [0; 1; 1; 2; 3; 3];
    [0; 1; 1; 2; 3; 4];
    [0; 1; 2; 3; 4; 5] ].
Proof. reflexivity. Qed.

(** ** Computations: general facts *)

Lemma bind_Returned {A B} (m : M A) (k : A -> M B) w a w' :
  m w = Returned a w' -> bind m k w = k a w'.
Proof. intros H. unfold bind. now rewrite H. Qed.

Lemma load_handle_Some this w o :
  objects w !! this = Some o -> load_handle this w = Returned (handle o) w.
Proof. intros H. unfold load_handle. now rewrite H. Qed.

Lemma world_eta w :
  {| objects := objects w; trace := trace w; current := current w |} = w.
Proof. now destruct w. Qed.

Lemma stores_app t u : stores (t ++ u) = stores t ++ stores u.
Proof.
  induction t as [| [c | a h] t IH]; simpl; trivial. now rewrite IH.
Qed.

Lemma calls_app t u : calls (t ++ u) = calls t ++ calls u.
Proof.
  induction t as [| [c | a h] t IH]; simpl; trivial. now rewrite IH.
Qed.

Lemma stores_call t c : stores (t ++ [Call c]) = stores t.
Proof. rewrite stores_app. simpl. apply app_nil_r. Qed.

(** ** Computations that write no handle *)

Lemma keeps_handles_ret {A} (a : A) : keeps_handles (ret a).
Proof. intros w. now split. Qed.

Lemma keeps_handles_bind {A B} (m : M A) (k : A -> M B) :
  keeps_handles m -> (forall a, keeps_handles (k a)) ->
  keeps_handles (bind m k).
Proof.
  intros Hm Hk w. unfold bind.
  destruct (Hm w) as [Ho Hs].
  destruct (m w) as [a w' | w' | w' | w'] eqn:E; simpl in *; auto.
  destruct (Hk a w') as [Ho' Hs']. split; congruence.
Qed.

Lemma keeps_handles_emit c : keeps_handles (emit (Call c)).
Proof. intros w. simpl. split; [reflexivity | apply stores_call]. Qed.

Lemma keeps_handles_history : keeps_handles history.
Proof. intros w. now split. Qed.

Lemma keeps_handles_load this : keeps_handles (load_handle this).
Proof. intros w. unfold load_handle. now destruct (objects w !! this). Qed.

Lemma keeps_handles_vTaskDelete h : keeps_handles (vTaskDelete h).
Proof.
  apply keeps_handles_bind; [apply keeps_handles_emit |].
  intros _ w. now destruct ((h =? NULL) || (h =? current w)).
Qed.

Create HintDb frame.
#[local] Hint Resolve keeps_handles_ret keeps_handles_emit keeps_handles_history
  keeps_handles_load keeps_handles_vTaskDelete : frame.

Ltac frame :=
  repeat first
    [ progress eauto with frame
    | apply keeps_handles_bind; [| intro] ].

(** ** The loop of the trampoline *)

Lemma while_1_delays (d : Z) (fuel : nat) (w : World) :
  while_1 fuel (vTaskDelay d) w =
  Spinning {| objects := objects w;
              trace := trace w ++ repeat (Call (Call_vTaskDelay d)) fuel;
              current := current w |}.
Proof.
  revert w. induction fuel as [| n IH]; intros w; simpl.
  - now rewrite app_nil_r, world_eta.
  - unfold bind, vTaskDelay, emit. rewrite IH. simpl.
    now rewrite <- app_assoc.
Qed.

(** Whatever the task body and the configuration, the trampoline does not
    come back to its caller. *)
Lemma taskfun_does_not_return cfg task fuel parm w :
  returned (taskfun cfg task fuel parm w) = false.
Proof.
  unfold taskfun, bind.
  destruct (task parm w) as [[] w1 | w1 | w1 | w1]; trivial.
  destruct (INCLUDE_vTaskDelete cfg).
  - unfold store_handle. now destruct (objects w1 !! parm).
  - now rewrite while_1_delays.
Qed.

(** ** The trampoline *)

(** The branch compiled with vTaskDelete, from the return of the task
    body on. *)
Lemma taskfun_delete_run cfg task fuel parm w w1 o :
  INCLUDE_vTaskDelete cfg = true ->
  task parm w = Returned tt w1 ->
  objects w1 !! parm = Some o ->
  taskfun cfg task fuel parm w =
  TaskDeleted
    {| objects := <[parm := {| handle := NULL |}]> (objects w1);
       trace := trace w1 ++ [Store parm NULL; Call (Call_vTaskDelete NULL)];
       current := current w1 |}.
Proof.
  intros Hcfg Htask Hobj. unfold taskfun.
  rewrite (bind_Returned _ _ _ _ _ Htask), Hcfg.
  unfold vTaskDelete, bind, store_handle, emit. rewrite Hobj. simpl.
  now rewrite <- app_assoc.
Qed.

(** C4. With vTaskDelete compiled in, once the task body has returned to
    the trampoline, the trampoline first writes the null handle into the
    object and then calls vTaskDelete(0); the call deletes the executing
    task, so the trampoline ends there, without returning, and nothing of
    it runs afterwards: these two events are the last of the trace. *)
Theorem taskfun_clears_handle_then_deletes cfg task fuel parm w w1 o :
  INCLUDE_vTaskDelete cfg = true ->
  task parm w = Returned tt w1 ->
  objects w1 !! parm = Some o ->
  taskfun cfg task fuel parm w =
  TaskDeleted
    {| objects := <[parm := {| handle := NULL |}]> (objects w1);
       trace := trace w1 ++ [Store parm NULL; Call (Call_vTaskDelete NULL)];
       current := current w1 |} /\
  getHandle parm (world_of (taskfun cfg task fuel parm w)) =
  Returned NULL (world_of (taskfun cfg task fuel parm w)).
Proof.
  intros Hcfg Htask Hobj.
  rewrite (taskfun_delete_run _ _ _ _ _ _ _ Hcfg Htask Hobj).
  split; trivial.
  unfold getHandle, load_handle. simpl. now rewrite lookup_insert_eq.
Qed.

Lemma taskfun_clears_handle_then_deletes_witness :
  INCLUDE_vTaskDelete cfg_delete = true /\
  task_returns 100 (world_with 4096) = Returned tt (world_with 4096) /\
  objects (world_with 4096) !! 100 = Some {| handle := 4096 |} /\
  taskfun cfg_delete task_returns 3 100 (world_with 4096) =
  TaskDeleted
    {| objects := <[100 := {| handle := NULL |}]> (objects (world_with 4096));
       trace := [Store 100 NULL; Call (Call_vTaskDelete NULL)];
       current := 512 |} /\
  getHandle 100 (world_of (taskfun cfg_delete task_returns 3 100
                             (world_with 4096))) =
  Returned NULL (world_of (taskfun cfg_delete task_returns 3 100
                             (world_with 4096))).
Proof.
  split; [reflexivity |]. split; [reflexivity |]. split; [reflexivity |].
  apply (taskfun_clears_handle_then_deletes cfg_delete task_returns 3 100
           (world_with 4096) (world_with 4096) {| handle := 4096 |});
    reflexivity.
Defined.

(** After the trampoline has ended that way, the destructor of the object
    finds the handle null and calls nothing. *)
Lemma dtor_after_taskfun cfg task fuel parm w w1 o :
  INCLUDE_vTaskDelete cfg = true ->
  task parm w = Returned tt w1 ->
  objects w1 !! parm = Some o ->
  let w2 := world_of (taskfun cfg task fuel parm w) in
  Task_dtor cfg parm w2 = Returned tt w2.
Proof.
  intros Hcfg Htask Hobj.
  rewrite (taskfun_delete_run _ _ _ _ _ _ _ Hcfg Htask Hobj).
  simpl. unfold Task_dtor. rewrite Hcfg.
  unfold bind, load_handle. simpl. now rewrite lookup_insert_eq.
Qed.

(** C5. With vTaskDelete compiled out, once the task body has returned to
    the trampoline, the trampoline is in its loop for good: whatever the
    number of rounds observed, it has not returned, it has called
    vTaskDelay(portMAX_DELAY) once per round and has done nothing else. *)
Theorem taskfun_without_delete_loops_forever cfg task parm w w1 :
  INCLUDE_vTaskDelete cfg = false ->
  task parm w = Returned tt w1 ->
  forall fuel : nat,
    taskfun cfg task fuel parm w =
    Spinning
      {| objects := objects w1;
         trace := trace w1 ++
                  repeat (Call (Call_vTaskDelay (portMAX_DELAY cfg))) fuel;
         current := current w1 |} /\
    returned (taskfun cfg task fuel parm w) = false.
Proof.
  intros Hcfg Htask fuel.
  split; [| apply taskfun_does_not_return].
  unfold taskfun. rewrite (bind_Returned _ _ _ _ _ Htask), Hcfg.
  apply while_1_delays.
Qed.

Lemma taskfun_without_delete_loops_forever_witness :
  INCLUDE_vTaskDelete cfg_no_delete = false /\
  task_returns 100 (world_with 4096) = Returned tt (world_with 4096) /\
  forall fuel : nat,
    taskfun cfg_no_delete task_returns fuel 100 (world_with 4096) =
    Spinning
      {| objects := objects (world_with 4096);
         trace := trace (world_with 4096) ++
                  repeat (Call (Call_vTaskDelay (portMAX_DELAY cfg_no_delete)))
                    fuel;
         current := current (world_with 4096) |} /\
    returned (taskfun cfg_no_delete task_returns fuel 100 (world_with 4096))
    = false.
Proof.
  split; [reflexivity |]. split; [reflexivity |].
  apply (taskfun_without_delete_loops_forever cfg_no_delete task_returns 100
           (world_with 4096) (world_with 4096)); reflexivity.
Defined.

(** ** The destructor *)

(** What one run of the destructor does, when vTaskDelete is compiled in. *)
Lemma Task_dtor_run cfg this w o :
  INCLUDE_vTaskDelete cfg = true ->
  objects w !! this = Some o ->
  world_of (Task_dtor cfg this w) =
  {| objects := objects w;
     trace := trace w ++
              (if handle o =? NULL then []
               else [Call (Call_vTaskDelete (handle o))]);
     current := current w |}.
Proof.
  intros Hcfg Hobj. unfold Task_dtor. rewrite Hcfg.
  rewrite (bind_Returned _ _ _ _ _ (load_handle_Some _ _ _ Hobj)).
  unfold NULL. destruct (handle o =? 0) eqn:E; simpl.
  - now rewrite app_nil_r, world_eta.
  - unfold vTaskDelete, bind, emit. simpl.
    now destruct ((handle o =? NULL) || (handle o =? current w)).
Qed.

(** C6, as claimed, fails: the destructor does not reset the handle, so a
    second run on the same object reads the same handle and calls
    vTaskDelete once more. *)
Lemma second_destruction_deletes_again :
  let w1 := world_of (Task_dtor cfg_delete 100 (world_with 4096)) in
  let w2 := world_of (Task_dtor cfg_delete 100 w1) in
  getHandle 100 w1 = Returned 4096 w1 /\
  calls (trace w1) = [Call_vTaskDelete 4096] /\
  calls (trace w2) = [Call_vTaskDelete 4096; Call_vTaskDelete 4096] /\
  ~ (getHandle 100 w1 = Returned NULL w1 /\
     delete_count (trace w2) = delete_count (trace w1)).
Proof.
  repeat split. intros [H _]. vm_compute in H. discriminate H.
Qed.

(** C6, amended. With vTaskDelete compiled in, a run of the destructor on
    an object whose handle is present calls vTaskDelete exactly once, with
    that handle, and leaves every handle field as it was; a run on an
    object whose handle is null calls nothing. *)
Theorem Task_dtor_deletes_once_keeps_handle cfg this w o :
  INCLUDE_vTaskDelete cfg = true ->
  objects w !! this = Some o ->
  let w' := world_of (Task_dtor cfg this w) in
  objects w' = objects w /\
  trace w' = trace w ++
             (if handle o =? NULL then []
              else [Call (Call_vTaskDelete (handle o))]) /\
  delete_count (trace w') =
    Nat.add (delete_count (trace w))
      (if handle o =? NULL then 0%nat else 1%nat).
Proof.
  intros Hcfg Hobj w'. subst w'.
  rewrite (Task_dtor_run _ _ _ _ Hcfg Hobj). simpl.
  repeat split. unfold delete_count.
  rewrite calls_app, List.filter_app, length_app.
  now destruct (handle o =? NULL).
Qed.

Lemma Task_dtor_deletes_once_keeps_handle_witness :
  INCLUDE_vTaskDelete cfg_delete = true /\
  objects (world_with 4096) !! 100 = Some {| handle := 4096 |} /\
  let w' := world_of (Task_dtor cfg_delete 100 (world_with 4096)) in
  objects w' = objects (world_with 4096) /\
  trace w' = trace (world_with 4096) ++
             (if 4096 =? NULL then [] else [Call (Call_vTaskDelete 4096)]) /\
  delete_count (trace w') =
    Nat.add (delete_count (trace (world_with 4096)))
      (if 4096 =? NULL then 0%nat else 1%nat).
Proof.
  split; [reflexivity |]. split; [reflexivity |].
  apply (Task_dtor_deletes_once_keeps_handle cfg_delete 100 (world_with 4096)
           {| handle := 4096 |}); reflexivity.
Defined.

(** ** The constructor *)

(** What the constructor does: one call of xTaskCreate, and a write to the
    handle exactly when the kernel passes a handle back. *)
Lemma Task_ctor_run sched this name f prio depth parm w :
  let r := xTaskCreate_answer sched (trace w) f name depth parm prio in
  let c := Call (Call_xTaskCreate f name depth parm prio) in
  Task_ctor sched this name f prio depth parm w =
  match created r, objects w !! this with
  | Some h, Some _ =>
      Returned tt
        {| objects := <[this := {| handle := h |}]> (objects w);
           trace := trace w ++ [c; Store this h];
           current := current w |}
  | Some h, None =>
      Undefined
        {| objects := objects w; trace := trace w ++ [c];
           current := current w |}
  | None, _ =>
      Returned tt
        {| objects := objects w; trace := trace w ++ [c];
           current := current w |}
  end.
Proof.
  intros r c. unfold Task_ctor, xTaskCreate, bind, history, emit. simpl.
  fold r. destruct (created r) as [h |]; simpl; [| now destruct (objects w !! this)].
  unfold store_handle. simpl.
  destruct (objects w !! this); simpl; trivial.
  now rewrite <- app_assoc.
Qed.

(** When the kernel stores nothing through pxCreatedTask, the handle field
    keeps whatever its storage held before the constructor ran. *)
Lemma Task_ctor_nothing_stored sched this name f prio depth parm w o :
  created (xTaskCreate_answer sched (trace w) f name depth parm prio) = None ->
  objects w !! this = Some o ->
  (Task_ctor sched this name f prio depth parm ;; getHandle this) w =
  Returned (handle o)
    {| objects := objects w;
       trace := trace w ++ [Call (Call_xTaskCreate f name depth parm prio)];
       current := current w |}.
Proof.
  intros Hnone Hobj. unfold bind.
  rewrite Task_ctor_run. simpl. rewrite Hnone.
  unfold getHandle, load_handle. simpl. now rewrite Hobj.
Qed.

(** C7 does not hold of the constructor.  The kernel is out of memory:
    xTaskCreate returns errCOULD_NOT_ALLOCATE_REQUIRED_MEMORY and stores
    nothing.  The object's storage held 3735928559 before; the constructor
    returns normally and getHandle then yields 3735928559, not null. *)
Theorem failed_create_leaves_handle_unset :
  let w := world_with 3735928559 in
  xTaskCreate_answer sched_oom (trace w) (fn_user 7) "t" 128 0 1 =
    {| xReturn := errCOULD_NOT_ALLOCATE_REQUIRED_MEMORY; created := None |} /\
  exists w',
    Task_ctor sched_oom 100 "t" (fn_user 7) 1 128 0 w = Returned tt w' /\
    getHandle 100 w' = Returned 3735928559 w' /\
    3735928559 <> NULL.
Proof.
  split; [reflexivity |].
  eexists. split; [reflexivity |]. split; [reflexivity |]. discriminate.
Qed.

(** On storage that held the null pointer before (an object of static
    storage duration), the same failure does leave a null handle. *)
Lemma failed_create_on_zeroed_storage :
  (Task_ctor sched_oom 100 "t" (fn_user 7) 1 128 0 ;; getHandle 100)
    (world_with NULL) =
  Returned NULL
    {| objects := objects (world_with NULL);
       trace := [Call (Call_xTaskCreate (fn_user 7) "t" 128 0 1)];
       current := 512 |}.
Proof. reflexivity. Qed.

(** ** resume_ISR *)

(** C8. Whatever the stored handle, resume_ISR hands xTaskResumeFromISR's
    answer back unchanged: when the kernel answers pdTRUE the result is
    true, when it answers pdFALSE the result is false; the kernel is called
    once, with the stored handle, and nothing else happens. *)
Theorem resume_ISR_passes_answer_through sched this w o (b : bool) :
  objects w !! this = Some o ->
  xTaskResumeFromISR_answer sched (trace w) (handle o) =
    (if b then pdTRUE else pdFALSE) ->
  resume_ISR sched this w =
  Returned b
    {| objects := objects w;
       trace := trace w ++ [Call (Call_xTaskResumeFromISR (handle o))];
       current := current w |}.
Proof.
  intros Hobj Hans. unfold resume_ISR.
  rewrite (bind_Returned _ _ _ _ _ (load_handle_Some _ _ _ Hobj)).
  unfold xTaskResumeFromISR, bind, history, emit, ret. simpl.
  rewrite Hans. now destruct b.
Qed.

Lemma resume_ISR_passes_answer_through_witness :
  objects (world_with 4096) !! 100 = Some {| handle := 4096 |} /\
  xTaskResumeFromISR_answer sched_ok (trace (world_with 4096)) 4096 =
    (if true then pdTRUE else pdFALSE) /\
  resume_ISR sched_ok 100 (world_with 4096) =
  Returned true
    {| objects := objects (world_with 4096);
       trace := trace (world_with 4096) ++
                [Call (Call_xTaskResumeFromISR 4096)];
       current := current (world_with 4096) |}.
Proof.
  split; [reflexivity |]. split; [reflexivity |].
  apply (resume_ISR_passes_answer_through sched_ok 100 (world_with 4096)
           {| handle := 4096 |} true); reflexivity.
Defined.

(** resume_ISR is declared inside the block of suspend and resume: where
    it is compiled, they are. *)
Lemma resume_ISR_compiled_with_resume cfg :
  compiled cfg m_resume_ISR = true ->
  compiled cfg m_suspend = true /\ compiled cfg m_resume = true.
Proof. simpl. now destruct (INCLUDE_vTaskSuspend cfg). Qed.

(** ** The constructor of TaskClass *)

(** The task is created with the trampoline as its function and the
    object itself as the parameter. *)
Lemma TaskClass_ctor_call sched this name prio depth w :
  calls (trace (world_of (TaskClass_ctor sched this name prio depth w))) =
  calls (trace w) ++ [Call_xTaskCreate fn_taskfun name depth this prio].
Proof.
  unfold TaskClass_ctor. rewrite Task_ctor_run.
  destruct (created _), (objects w !! this); simpl;
    rewrite calls_app; simpl; trivial.
Qed.

(** ** Who writes the handle *)

Lemma keeps_handles_Task_dtor cfg this : keeps_handles (Task_dtor cfg this).
Proof.
  unfold Task_dtor. destruct (INCLUDE_vTaskDelete cfg); [| frame].
  apply keeps_handles_bind; [frame |].
  intros h. destruct (negb (h =? 0)); frame.
Qed.

Lemma keeps_handles_getHandle this : keeps_handles (getHandle this).
Proof. unfold getHandle. frame. Qed.

Lemma keeps_handles_priority_get sched this :
  keeps_handles (priority_get sched this).
Proof. unfold priority_get, uxTaskPriorityGet. frame. Qed.

Lemma keeps_handles_priority_set this p : keeps_handles (priority_set this p).
Proof. unfold priority_set, vTaskPrioritySet. frame. Qed.

Lemma keeps_handles_suspend this : keeps_handles (suspend this).
Proof. unfold suspend, vTaskSuspend. frame. Qed.

Lemma keeps_handles_resume this : keeps_handles (resume this).
Proof. unfold resume, vTaskResume. frame. Qed.

Lemma keeps_handles_resume_ISR sched this :
  keeps_handles (resume_ISR sched this).
Proof. unfold resume_ISR, xTaskResumeFromISR. frame. Qed.

Lemma keeps_handles_while_1 d fuel : keeps_handles (while_1 fuel (vTaskDelay d)).
Proof.
  intros w. rewrite while_1_delays. simpl. split; trivial.
  rewrite stores_app.
  assert (H : stores (repeat (Call (Call_vTaskDelay d)) fuel) = [])
    by (induction fuel; simpl; trivial).
  rewrite H. apply app_nil_r.
Qed.

(** C10. The handle field is written at two places only.  The constructor
    writes it when, and with what, xTaskCreate passes back; the trampoline
    writes null to it in the branch compiled with vTaskDelete, after the
    task body has returned.  getHandle, priority (get and set), suspend,
    resume, resume_ISR and the destructor write no handle field. *)
Theorem handle_written_only_by_ctor_and_taskfun cfg sched task :
  (forall this, keeps_handles (getHandle this)) /\
  (forall this, keeps_handles (priority_get sched this)) /\
  (forall this p, keeps_handles (priority_set this p)) /\
  (forall this, keeps_handles (suspend this)) /\
  (forall this, keeps_handles (resume this)) /\
  (forall this, keeps_handles (resume_ISR sched this)) /\
  (forall this, keeps_handles (Task_dtor cfg this)) /\
  (forall this name f prio depth parm w,
     let w' := world_of (Task_ctor sched this name f prio depth parm w) in
     let r := xTaskCreate_answer sched (trace w) f name depth parm prio in
     match created r, objects w !! this with
     | Some h, Some _ =>
         objects w' = <[this := {| handle := h |}]> (objects w) /\
         stores (trace w') = stores (trace w) ++ [(this, h)]
     | _, _ =>
         objects w' = objects w /\ stores (trace w') = stores (trace w)
     end) /\
  (forall fuel parm w,
     let w1 := world_of (task parm w) in
     let w2 := world_of (taskfun cfg task fuel parm w) in
     match returned (task parm w) && INCLUDE_vTaskDelete cfg,
           objects w1 !! parm with
     | true, Some _ =>
         objects w2 = <[parm := {| handle := NULL |}]> (objects w1) /\
         stores (trace w2) = stores (trace w1) ++ [(parm, NULL)]
     | _, _ =>
         objects w2 = objects w1 /\ stores (trace w2) = stores (trace w1)
     end).
Proof.
  split; [exact keeps_handles_getHandle |].
  split; [exact (keeps_handles_priority_get sched) |].
  split; [exact keeps_handles_priority_set |].
  split; [exact keeps_handles_suspend |].
  split; [exact keeps_handles_resume |].
  split; [exact (keeps_handles_resume_ISR sched) |].
  split; [exact (keeps_handles_Task_dtor cfg) |].
  split.
  - intros this name f prio depth parm w w' r. subst w'.
    rewrite Task_ctor_run. fold r.
    destruct (created r) as [h |], (objects w !! this); simpl;
      rewrite ?stores_app, ?stores_call; simpl; rewrite ?app_nil_r; auto.
  - intros fuel parm w w1 w2. subst w1 w2. unfold taskfun, bind.
    destruct (task parm w) as [[] w1 | w1 | w1 | w1]; simpl;
      try (destruct (objects w1 !! parm); now split).
    destruct (INCLUDE_vTaskDelete cfg); simpl.
    + unfold store_handle.
      destruct (objects w1 !! parm); simpl; [| now split].
      split; trivial.
      now rewrite stores_call, stores_app.
    + destruct (keeps_handles_while_1 (portMAX_DELAY cfg) fuel w1).
      now destruct (objects w1 !! parm).
Qed.

(** ** More on the priority enumeration *)

Lemma enum_values_from_six (N : Z) :
  6 <= N ->
  TaskPrio_Low N = 1 /\ TaskPrio_HMI N = 2 /\ TaskPrio_Mid N = N / 2 /\
  TaskPrio_High N = N - 2 /\ 3 <= N / 2 <= N - 3.
Proof.
  intros HN.
  assert (Hd : 2 * (N / 2) <= N < 2 * (N / 2) + 2).
  { pose proof (Z.div_mod N 2 ltac:(lia)).
    pose proof (Z.mod_pos_bound N 2 ltac:(lia)). lia. }
  unfold TaskPrio_HMI, TaskPrio_High, TaskPrio_Low, TaskPrio_Mid.
  rewrite !cmp_gt, quot2_div2 by lia.
  repeat case_decide; lia.
Qed.

(** X1. The last column of the table in the header's documentation: from
    six priority levels on, the enumerators are 0, 1, 2, N/2, N-2 and N-1,
    in the order Idle, Low, HMI, Mid, High, Highest. *)
Theorem priority_table_from_six (N : Z) :
  6 <= N -> priority_table N = [0; 1; 2; N / 2; N - 2; N - 1].
Proof.
  intros HN. destruct (enum_values_from_six N HN) as (Hl & Hh & Hm & Hg & _).
  unfold priority_table. simpl. now rewrite Hl, Hh, Hm, Hg.
Qed.

Lemma priority_table_from_six_witness :
  6 <= 10 /\ priority_table 10 = [0; 1; 2; 10 / 2; 10 - 2; 10 - 1].
Proof.
  split; [lia | apply (priority_table_from_six 10); lia].
Defined.

(** X2. The six names denote six different priorities exactly when there
    are at least six priority levels; with fewer, some names share a
    value. *)
Theorem tiers_distinct_iff_six_levels (N : Z) :
  1 <= N -> (NoDup (priority_table N) <-> 6 <= N).
Proof.
  intros HN. split.
  - intros Hnd. destruct (decide (6 <= N)) as [| Hlt]; trivial.
    exfalso. unfold priority_table in Hnd. simpl in Hnd.
    apply NoDup_cons in Hnd as [_ Hnd].
    apply NoDup_cons in Hnd as [Hnotin _].
    apply Hnotin.
    assert (Heq : TaskPrio_HMI N = TaskPrio_Low N).
    { unfold TaskPrio_HMI. rewrite (cmp_gt N 5). case_decide; lia. }
    rewrite Heq. apply list_elem_of_here.
  - intros H6. destruct (enum_values_from_six N H6) as (Hl & Hh & Hm & Hg & Hb).
    unfold priority_table. simpl. rewrite Hl, Hh, Hm, Hg.
    unfold TaskPrio_Idle, TaskPrio_Highest.
    repeat (apply NoDup_cons; split;
            [rewrite ?not_elem_of_cons; repeat split;
             try lia; apply not_elem_of_nil |]).
    apply NoDup_nil_2.
Qed.

Lemma tiers_distinct_iff_six_levels_witness :
  1 <= 5 /\ (NoDup (priority_table 5) <-> 6 <= 5).
Proof.
  split; [lia | apply (tiers_distinct_iff_six_levels 5); lia].
Defined.

(** X3. With at most six priority levels every level has a name; with
    more than six some level has none (the header: "some values won't have
    names here"). *)
Theorem every_level_named_iff_at_most_six (N : Z) :
  1 <= N ->
  ((forall p, 0 <= p < N -> exists t, enum_value N t = p) <-> N <= 6).
Proof.
  intros HN. split.
  - intros Hall. destruct (decide (N <= 6)) as [| Hgt]; trivial.
    exfalso.
    destruct (enum_values_from_six N ltac:(lia)) as (Hl & Hh & Hm & Hg & Hb).
    assert (Hd : 2 * (N / 2) <= N < 2 * (N / 2) + 2).
    { pose proof (Z.div_mod N 2 ltac:(lia)).
      pose proof (Z.mod_pos_bound N 2 ltac:(lia)). lia. }
    destruct (decide (N = 7)) as [-> | H7].
    + destruct (Hall 4 ltac:(lia)) as [[] Ht]; vm_compute in Ht;
        discriminate Ht.
    + destruct (Hall 3 ltac:(lia)) as [[] Ht]; simpl in Ht;
        unfold TaskPrio_Idle, TaskPrio_Highest in Ht; lia.
  - intros H6 p Hp.
    assert (Hc : N = 1 \/ N = 2 \/ N = 3 \/ N = 4 \/ N = 5 \/ N = 6) by lia.
    assert (Hq : p = 0 \/ p = 1 \/ p = 2 \/ p = 3 \/ p = 4 \/ p = 5) by lia.
    destruct Hc as [-> | [-> | [-> | [-> | [-> | ->]]]]];
      destruct Hq as [-> | [-> | [-> | [-> | [-> | ->]]]]];
      try lia;
      first [ now exists Idle | now exists Low | now exists HMI
            | now exists Mid | now exists High | now exists Highest ].
Qed.

Lemma every_level_named_iff_at_most_six_witness :
  1 <= 7 /\
  ((forall p, 0 <= p < 7 -> exists t, enum_value 7 t = p) <-> 7 <= 6).
Proof.
  split; [lia | apply (every_level_named_iff_at_most_six 7); lia].
Defined.



(** ** Construction and destruction together *)

(** X5. When the kernel passes a handle back, the constructor overwrites
    whatever the storage held with it: getHandle after the constructor
    yields the kernel's handle, and the only events are the call of
    xTaskCreate and that one write. *)
Theorem ctor_then_getHandle sched this name f prio depth parm w o h :
  objects w !! this = Some o ->
  created (xTaskCreate_answer sched (trace w) f name depth parm prio) = Some h ->
  (Task_ctor sched this name f prio depth parm ;; getHandle this) w =
  Returned h
    {| objects := <[this := {| handle := h |}]> (objects w);
       trace := trace w ++
                [Call (Call_xTaskCreate f name depth parm prio); Store this h];
       current := current w |}.
Proof.
  intros Hobj Hcr. unfold bind. rewrite Task_ctor_run. simpl.
  rewrite Hcr, Hobj. unfold getHandle, load_handle. simpl.
  now rewrite lookup_insert_eq.
Qed.

Lemma ctor_then_getHandle_witness :
  objects (world_with 3735928559) !! 100 = Some {| handle := 3735928559 |} /\
  created (xTaskCreate_answer sched_ok (trace (world_with 3735928559))
             (fn_user 7) "t" 128 0 1) = Some 4096 /\
  (Task_ctor sched_ok 100 "t" (fn_user 7) 1 128 0 ;; getHandle 100)
    (world_with 3735928559) =
  Returned 4096
    {| objects := <[100 := {| handle := 4096 |}]>
                    (objects (world_with 3735928559));
       trace := trace (world_with 3735928559) ++
                [Call (Call_xTaskCreate (fn_user 7) "t" 128 0 1);
                 Store 100 4096];
       current := current (world_with 3735928559) |}.
Proof.
  split; [reflexivity |]. split; [reflexivity |].
  apply (ctor_then_getHandle sched_ok 100 "t" (fn_user 7) 1 128 0
           (world_with 3735928559) {| handle := 3735928559 |} 4096);
    reflexivity.
Defined.

(** X6. The constructor drops the value xTaskCreate returns: two kernels
    that pass the same thing back through pxCreatedTask leave the same
    world behind, whatever status each of them reports. *)
Theorem ctor_ignores_return_code s1 s2 this name f prio depth parm w :
  created (xTaskCreate_answer s1 (trace w) f name depth parm prio) =
  created (xTaskCreate_answer s2 (trace w) f name depth parm prio) ->
  Task_ctor s1 this name f prio depth parm w =
  Task_ctor s2 this name f prio depth parm w.
Proof. intros Heq. rewrite !Task_ctor_run. simpl. now rewrite Heq. Qed.

Lemma ctor_ignores_return_code_witness :
  created (xTaskCreate_answer sched_oom (trace (world_with 7))
             (fn_user 7) "t" 128 0 1) =
  created (xTaskCreate_answer sched_mute (trace (world_with 7))
             (fn_user 7) "t" 128 0 1) /\
  Task_ctor sched_oom 100 "t" (fn_user 7) 1 128 0 (world_with 7) =
  Task_ctor sched_mute 100 "t" (fn_user 7) 1 128 0 (world_with 7).
Proof.
  split; [reflexivity |].
  apply (ctor_ignores_return_code sched_oom sched_mute 100 "t" (fn_user 7)
           1 128 0 (world_with 7)); reflexivity.
Defined.

(** X7. With vTaskDelete compiled in, constructing a Task and then
    destroying it deletes the task that was created: the kernel sees the
    call of xTaskCreate and then one vTaskDelete with the handle that the
    creation passed back. *)
Theorem ctor_then_dtor_deletes_created
    cfg sched this name f prio depth parm w o h :
  INCLUDE_vTaskDelete cfg = true ->
  objects w !! this = Some o ->
  created (xTaskCreate_answer sched (trace w) f name depth parm prio) = Some h ->
  h <> NULL ->
  calls (trace (world_of
    ((Task_ctor sched this name f prio depth parm ;; Task_dtor cfg this) w))) =
  calls (trace w) ++
  [Call_xTaskCreate f name depth parm prio; Call_vTaskDelete h].
Proof.
  intros Hcfg Hobj Hcr Hh. unfold bind. rewrite Task_ctor_run. simpl.
  rewrite Hcr, Hobj.
  rewrite (Task_dtor_run cfg this _ {| handle := h |} Hcfg)
    by (simpl; apply lookup_insert_eq).
  simpl. destruct (Z.eqb_spec h NULL) as [| _]; [contradiction |].
  rewrite !calls_app. simpl. now rewrite <- app_assoc.
Qed.

Lemma ctor_then_dtor_deletes_created_witness :
  INCLUDE_vTaskDelete cfg_delete = true /\
  objects (world_with 7) !! 100 = Some {| handle := 7 |} /\
  created (xTaskCreate_answer sched_ok (trace (world_with 7))
             (fn_user 7) "t" 128 0 1) = Some 4096 /\
  4096 <> NULL /\
  calls (trace (world_of
    ((Task_ctor sched_ok 100 "t" (fn_user 7) 1 128 0 ;;
      Task_dtor cfg_delete 100) (world_with 7)))) =
  calls (trace (world_with 7)) ++
  [Call_xTaskCreate (fn_user 7) "t" 128 0 1; Call_vTaskDelete 4096].
Proof.
  split; [reflexivity |]. split; [reflexivity |]. split; [reflexivity |].
  split; [discriminate |].
  apply (ctor_then_dtor_deletes_created cfg_delete sched_ok 100 "t" (fn_user 7)
           1 128 0 (world_with 7) {| handle := 7 |} 4096);
    [reflexivity | reflexivity | reflexivity | discriminate].
Defined.

(** ** After the trampoline *)

(** X8. With vTaskDelete compiled in, the end of a task body and the later
    destruction of its object delete the task once: the trampoline calls
    vTaskDelete(0), and the destructor, finding the handle null, returns
    without a kernel call. *)
Theorem finished_task_is_deleted_once cfg task fuel parm w w1 o :
  INCLUDE_vTaskDelete cfg = true ->
  task parm w = Returned tt w1 ->
  objects w1 !! parm = Some o ->
  let w2 := world_of (taskfun cfg task fuel parm w) in
  Task_dtor cfg parm w2 = Returned tt w2 /\
  calls (trace w2) = calls (trace w1) ++ [Call_vTaskDelete NULL].
Proof.
  intros Hcfg Htask Hobj.
  rewrite (taskfun_delete_run _ _ _ _ _ _ _ Hcfg Htask Hobj). simpl.
  split.
  - unfold Task_dtor. rewrite Hcfg.
    unfold bind, load_handle. simpl. now rewrite lookup_insert_eq.
  - now rewrite calls_app.
Qed.

Lemma finished_task_is_deleted_once_witness :
  INCLUDE_vTaskDelete cfg_delete = true /\
  task_returns 100 (world_with 4096) = Returned tt (world_with 4096) /\
  objects (world_with 4096) !! 100 = Some {| handle := 4096 |} /\
  let w2 := world_of (taskfun cfg_delete task_returns 2 100 (world_with 4096)) in
  Task_dtor cfg_delete 100 w2 = Returned tt w2 /\
  calls (trace w2) = calls (trace (world_with 4096)) ++ [Call_vTaskDelete NULL].
Proof.
  split; [reflexivity |]. split; [reflexivity |]. split; [reflexivity |].
  apply (finished_task_is_deleted_once cfg_delete task_returns 2 100
           (world_with 4096) (world_with 4096) {| handle := 4096 |});
    reflexivity.
Defined.

(** ** The pass-through members *)

(** What a member that reads the handle and makes one kernel call does. *)
Lemma pass_through_run {A} this (k : TaskHandle_t -> M A) w o :
  objects w !! this = Some o ->
  (h <- load_handle this ;; k h) w = k (handle o) w.
Proof. intros Hobj. apply bind_Returned. now apply load_handle_Some. Qed.



(** X10. Only the destructor tests the handle.  Once the trampoline has
    cleared it, priority(p), suspend(), resume() and resume_ISR() called on
    the object still reach the kernel, with the null handle. *)
Theorem members_after_taskfun_pass_null cfg sched task fuel parm w w1 o p :
  INCLUDE_vTaskDelete cfg = true ->
  task parm w = Returned tt w1 ->
  objects w1 !! parm = Some o ->
  let w2 := world_of (taskfun cfg task fuel parm w) in
  calls (trace (world_of (priority_set parm p w2))) =
    calls (trace w2) ++ [Call_vTaskPrioritySet NULL p] /\
  calls (trace (world_of (suspend parm w2))) =
    calls (trace w2) ++ [Call_vTaskSuspend NULL] /\
  calls (trace (world_of (resume parm w2))) =
    calls (trace w2) ++ [Call_vTaskResume NULL] /\
  calls (trace (world_of (resume_ISR sched parm w2))) =
    calls (trace w2) ++ [Call_xTaskResumeFromISR NULL].
Proof.
  intros Hcfg Htask Hobj.
  rewrite (taskfun_delete_run _ _ _ _ _ _ _ Hcfg Htask Hobj). simpl.
  unfold priority_set, suspend, resume, resume_ISR.
  rewrite !(pass_through_run parm _ _ {| handle := NULL |})
    by (simpl; apply lookup_insert_eq).
  simpl. rewrite !calls_app. simpl. repeat split.
Qed.

Lemma members_after_taskfun_pass_null_witness :
  INCLUDE_vTaskDelete cfg_delete = true /\
  task_returns 100 (world_with 4096) = Returned tt (world_with 4096) /\
  objects (world_with 4096) !! 100 = Some {| handle := 4096 |} /\
  let w2 := world_of (taskfun cfg_delete task_returns 2 100 (world_with 4096)) in
  calls (trace (world_of (priority_set 100 3 w2))) =
    calls (trace w2) ++ [Call_vTaskPrioritySet NULL 3] /\
  calls (trace (world_of (suspend 100 w2))) =
    calls (trace w2) ++ [Call_vTaskSuspend NULL] /\
  calls (trace (world_of (resume 100 w2))) =
    calls (trace w2) ++ [Call_vTaskResume NULL] /\
  calls (trace (world_of (resume_ISR sched_ok 100 w2))) =
    calls (trace w2) ++ [Call_xTaskResumeFromISR NULL].
Proof.
  split; [reflexivity |]. split; [reflexivity |]. split; [reflexivity |].
  apply (members_after_taskfun_pass_null cfg_delete sched_ok task_returns 2 100
           (world_with 4096) (world_with 4096) {| handle := 4096 |} 3);
    reflexivity.
Defined.

(** ** Several objects *)



(** ** Who calls vTaskDelete *)

Lemma delete_count_app t u :
  delete_count (t ++ u) = Nat.add (delete_count t) (delete_count u).
Proof.
  unfold delete_count. now rewrite calls_app, List.filter_app, length_app.
Qed.

Lemma never_deletes_ret {A} (a : A) : never_deletes (ret a).
Proof. intros w. reflexivity. Qed.

Lemma never_deletes_bind {A B} (m : M A) (k : A -> M B) :
  never_deletes m -> (forall a, never_deletes (k a)) ->
  never_deletes (bind m k).
Proof.
  intros Hm Hk w. unfold bind. specialize (Hm w).
  destruct (m w) as [a w' | w' | w' | w']; simpl in *; trivial.
  now rewrite Hk.
Qed.

Lemma never_deletes_emit e :
  delete_count [e] = 0%nat -> never_deletes (emit e).
Proof.
  intros He w. simpl. rewrite delete_count_app, He. apply Nat.add_0_r.
Qed.

Lemma never_deletes_history : never_deletes history.
Proof. intros w. reflexivity. Qed.

Lemma never_deletes_load this : never_deletes (load_handle this).
Proof. intros w. unfold load_handle. now destruct (objects w !! this). Qed.

Lemma never_deletes_store this h : never_deletes (store_handle this h).
Proof.
  intros w. unfold store_handle. destruct (objects w !! this); simpl; trivial.
  rewrite delete_count_app. apply Nat.add_0_r.
Qed.

Lemma never_deletes_while_1 d fuel :
  never_deletes (while_1 fuel (vTaskDelay d)).
Proof.
  induction fuel as [| n IH]; simpl.
  - intros w. reflexivity.
  - apply never_deletes_bind; [now apply never_deletes_emit | now intros _].
Qed.

Ltac no_delete :=
  repeat first
    [ apply never_deletes_ret | apply never_deletes_history
    | apply never_deletes_load | apply never_deletes_store
    | apply never_deletes_emit; reflexivity
    | apply never_deletes_bind; [| intro] ].

Lemma never_deletes_Task_ctor sched this name f prio depth parm :
  never_deletes (Task_ctor sched this name f prio depth parm).
Proof.
  unfold Task_ctor, xTaskCreate.
  apply never_deletes_bind; [| intro; no_delete].
  apply never_deletes_bind; [no_delete | intros past].
  apply never_deletes_bind; [no_delete | intros _].
  apply never_deletes_bind; [| intro; no_delete].
  destruct (created _); no_delete.
Qed.

(** X12. In every configuration, the constructors of Task and TaskClass,
    getHandle, priority (get and set), suspend, resume and resume_ISR
    never call vTaskDelete. *)
Theorem members_never_delete sched :
  (forall this name f prio depth parm,
     never_deletes (Task_ctor sched this name f prio depth parm)) /\
  (forall this name prio depth,
     never_deletes (TaskClass_ctor sched this name prio depth)) /\
  (forall this, never_deletes (getHandle this)) /\
  (forall this, never_deletes (priority_get sched this)) /\
  (forall this p, never_deletes (priority_set this p)) /\
  (forall this, never_deletes (suspend this)) /\
  (forall this, never_deletes (resume this)) /\
  (forall this, never_deletes (resume_ISR sched this)).
Proof.
  split; [intros; apply never_deletes_Task_ctor |].
  split; [intros; apply never_deletes_Task_ctor |].
  repeat split; intros;
    unfold getHandle, priority_get, priority_set, suspend, resume, resume_ISR,
      uxTaskPriorityGet, vTaskPrioritySet, vTaskSuspend, vTaskResume,
      xTaskResumeFromISR;
    no_delete.
Qed.

(** X13. With vTaskDelete compiled out nothing of the header deletes a
    task: neither the destructor nor the trampoline calls vTaskDelete, as
    long as the task body does not call it itself. *)
Theorem nothing_deleted_when_compiled_out cfg task :
  INCLUDE_vTaskDelete cfg = false ->
  (forall parm, never_deletes (task parm)) ->
  (forall this, never_deletes (Task_dtor cfg this)) /\
  (forall fuel parm, never_deletes (taskfun cfg task fuel parm)).
Proof.
  intros Hcfg Htask. split.
  - intros this. unfold Task_dtor. rewrite Hcfg. apply never_deletes_ret.
  - intros fuel parm. unfold taskfun. rewrite Hcfg.
    apply never_deletes_bind; [apply Htask | intros _].
    apply never_deletes_while_1.
Qed.

Lemma nothing_deleted_when_compiled_out_witness :
  INCLUDE_vTaskDelete cfg_no_delete = false /\
  (forall parm, never_deletes (task_returns parm)) /\
  (forall this, never_deletes (Task_dtor cfg_no_delete this)) /\
  (forall fuel parm,
     never_deletes (taskfun cfg_no_delete task_returns fuel parm)).
Proof.
  split; [reflexivity |].
  split; [intros parm w; reflexivity |].
  apply (nothing_deleted_when_compiled_out cfg_no_delete task_returns);
    [reflexivity | intros parm w; reflexivity].
Defined.

(** ** The trampoline as a task function *)

(** X14. A FreeRTOS task function must not return, and the trampoline
    does not, in either configuration and whatever the task body does; when
    the body itself does not return, the trampoline does nothing after
    it. *)
Theorem taskfun_never_returns cfg task fuel parm w :
  returned (taskfun cfg task fuel parm w) = false /\
  (returned (task parm w) = true \/
   taskfun cfg task fuel parm w = task parm w).
Proof.
  split; [apply taskfun_does_not_return |].
  unfold taskfun, bind.
  destruct (task parm w) as [[] w1 | w1 | w1 | w1]; simpl; auto.
Qed.

(** ** A TaskClass object from construction to the end of its task *)

(** X15. The constructor of TaskClass creates the task with the trampoline
    as its function and the object's own address as its parameter, and the
    object then holds the handle the kernel passed back.  When the body
    has returned and the trampoline, run on that parameter, has ended, the
    same object holds the null handle (vTaskDelete compiled in). *)
Theorem TaskClass_from_ctor_to_end
    cfg sched task fuel this name prio depth w o h w1 o1 :
  INCLUDE_vTaskDelete cfg = true ->
  objects w !! this = Some o ->
  created (xTaskCreate_answer sched (trace w) fn_taskfun name depth this prio)
    = Some h ->
  let wc := world_of (TaskClass_ctor sched this name prio depth w) in
  task this wc = Returned tt w1 ->
  objects w1 !! this = Some o1 ->
  let w2 := world_of (taskfun cfg task fuel this wc) in
  calls (trace wc) =
    calls (trace w) ++ [Call_xTaskCreate fn_taskfun name depth this prio] /\
  getHandle this wc = Returned h wc /\
  getHandle this w2 = Returned NULL w2.
Proof.
  intros Hcfg Hobj Hcr wc Htask Hobj1 w2.
  assert (Hwc : wc =
    {| objects := <[this := {| handle := h |}]> (objects w);
       trace := trace w ++
                [Call (Call_xTaskCreate fn_taskfun name depth this prio);
                 Store this h];
       current := current w |}).
  { subst wc. unfold TaskClass_ctor. rewrite Task_ctor_run. simpl.
    now rewrite Hcr, Hobj. }
  split; [| split].
  - rewrite Hwc. simpl. now rewrite calls_app.
  - rewrite Hwc at 1. unfold getHandle, load_handle. simpl.
    rewrite lookup_insert_eq. simpl. now rewrite <- Hwc.
  - subst w2.
    rewrite (taskfun_delete_run _ _ _ _ _ _ _ Hcfg Htask Hobj1).
    unfold getHandle, load_handle. simpl. now rewrite lookup_insert_eq.
Qed.

Lemma TaskClass_from_ctor_to_end_witness :
  INCLUDE_vTaskDelete cfg_delete = true /\
  objects (world_with 7) !! 100 = Some {| handle := 7 |} /\
  created (xTaskCreate_answer sched_ok (trace (world_with 7)) fn_taskfun
             "t" 128 100 1) = Some 4096 /\
  let wc := world_of (TaskClass_ctor sched_ok 100 "t" 1 128 (world_with 7)) in
  task_returns 100 wc = Returned tt wc /\
  objects wc !! 100 = Some {| handle := 4096 |} /\
  let w2 := world_of (taskfun cfg_delete task_returns 2 100 wc) in
  calls (trace wc) =
    calls (trace (world_with 7)) ++
    [Call_xTaskCreate fn_taskfun "t" 128 100 1] /\
  getHandle 100 wc = Returned 4096 wc /\
  getHandle 100 w2 = Returned NULL w2.
Proof.
  split; [reflexivity |]. split; [reflexivity |]. split; [reflexivity |].
  intros wc. split; [reflexivity |]. split; [reflexivity |].
  apply (TaskClass_from_ctor_to_end cfg_delete sched_ok task_returns 2 100
           "t" 1 128 (world_with 7) {| handle := 7 |} 4096 wc
           {| handle := 4096 |}); reflexivity.
Defined.

(** ** The enumeration and its documentation *)

(** X16. The enumeration computes what the table in the header's
    documentation lists, for every number of priority levels from 1 on. *)
Theorem priority_table_as_documented (N : Z) :
  1 <= N -> priority_table N = documented_column N.
Proof.
  intros HN. unfold documented_column.
  repeat match goal with
         | |- context [?a =? ?b] =>
             destruct (Z.eqb_spec a b) as [-> | ?]; [reflexivity |]
         end.
  destruct (enum_values_from_six N ltac:(lia)) as (Hl & Hh & Hm & Hg & _).
  unfold priority_table. simpl. now rewrite Hl, Hh, Hm, Hg.
Qed.

Lemma priority_table_as_documented_witness :
  1 <= 4 /\ priority_table 4 = documented_column 4.
Proof.
  split; [lia | apply (priority_table_as_documented 4); lia].
Defined.
